(** * Flowise configuration manager ([src/lib/flowise-config.ts])

    A shallow embedding of [FlowiseConfigManager] and of the two module
    constants it is built from, followed by the properties of its methods.

    The TypeScript types are erased when the program runs, so the embedding
    works on JavaScript values: an object is a finite map from property
    names to values, the spread [{ ...a, ...b }] is a right-biased union,
    [||], [??], [? :] and template literals go through [ToBoolean] and
    [ToString].  The declared types ([FlowiseConfig], [Partial<FlowiseConfig>],
    [keyof FlowiseApiEndpoints]) come back as hypotheses of the theorems. *)

From Stdlib Require Import ZArith String List SpecFloat.
From stdpp Require Import gmap strings fin_maps.

Local Open Scope string_scope.

(** ** JavaScript values *)

(** A [number] is an IEEE 754 binary64 datum. *)
Abbreviation number := spec_float.

(** The number denoted by an integer literal such as [30000]. *)
Definition number_of_Z (z : Z) : number := binary_normalize 53 1024 z 0 false.

(** The values this module can meet.  [VObject] is an ordinary object that
    keeps the default [toString]; [VFunction name] is the built-in function
    object of that name. *)
Inductive value : Type :=
  | VUndefined
  | VNull
  | VBool (b : bool)
  | VNum (x : number)
  | VStr (s : string)
  | VObject
  | VFunction (name : string).

(** A plain object, by its own enumerable properties. *)
Abbreviation object := (gmap string value).

(** [ToBoolean]: the falsy values are [undefined], [null], [false], [+0],
    [-0], [NaN] and the empty string. *)
Definition ToBoolean (v : value) : bool :=
  match v with
  | VUndefined | VNull => false
  | VBool b => b
  | VNum (S754_zero _) | VNum S754_nan => false
  | VNum _ => true
  | VStr EmptyString => false
  | VStr _ => true
  | VObject | VFunction _ => true
  end.

(** [a || b] *)
Definition js_or (a b : value) : value := if ToBoolean a then a else b.

(** [a ?? b] *)
Definition js_nullish (a b : value) : value :=
  match a with
  | VUndefined | VNull => b
  | _ => a
  end.

(** [Object.prototype], which every object literal inherits from: the
    names it defines.  [__proto__] is an accessor that answers the
    prototype itself. *)
Definition Object_prototype : object :=
  list_to_map
    [ ("constructor", VFunction "Object");
      ("__defineGetter__", VFunction "__defineGetter__");
      ("__defineSetter__", VFunction "__defineSetter__");
      ("hasOwnProperty", VFunction "hasOwnProperty");
      ("__lookupGetter__", VFunction "__lookupGetter__");
      ("__lookupSetter__", VFunction "__lookupSetter__");
      ("isPrototypeOf", VFunction "isPrototypeOf");
      ("propertyIsEnumerable", VFunction "propertyIsEnumerable");
      ("toString", VFunction "toString");
      ("valueOf", VFunction "valueOf");
      ("__proto__", VObject);
      ("toLocaleString", VFunction "toLocaleString") ].

(** [o.k] and [o[k]] on a plain object: the own property, else the
    inherited one, else [undefined]. *)
Definition Get (o : object) (k : string) : value :=
  match o !! k with
  | Some v => v
  | None => default VUndefined (Object_prototype !! k)
  end.

(** [{ ...a, ...b }]: the own properties of [a], overwritten by those of
    [b].  ([∪] on finite maps keeps the left operand's binding.) *)
Definition spread (a b : object) : object := b ∪ a.

(** How a call ends: with a result, or with a thrown error. *)
Inductive js_error : Type :=
  | TypeError.

Inductive completion (A : Type) : Type :=
  | Normal (a : A)
  | Throw (e : js_error).
Arguments Normal {A} a.
Arguments Throw {A} e.

#[global] Instance completion_ret : MRet completion := @Normal.

#[global] Instance completion_bind : MBind completion :=
  fun A B (k : A -> completion B) (c : completion A) =>
    match c with
    | Normal a => k a
    | Throw e => Throw e
    end.

(** [receiver.startsWith(search)]: only a string has the method; on
    [undefined] and [null] the property read throws, on any other value the
    property is [undefined] and the call throws. *)
Definition startsWith (receiver : value) (search : string) : completion bool :=
  match receiver with
  | VStr s => Normal (String.prefix search s)
  | _ => Throw TypeError
  end.

(** ** The module constants *)

(** [process.env.NAME] *)
Definition process_env (env : gmap string string) (name : string) : value :=
  match env !! name with
  | Some s => VStr s
  | None => VUndefined
  end.

Definition DEFAULT_FLOWISE_CONFIG (env : gmap string string) : object :=
  list_to_map
    [ ("apiKey", js_or (process_env env "FLOWISE_API_KEY") (VStr ""));
      ("baseUrl", js_or (process_env env "FLOWISE_BASE_URL") (VStr "https://api.flowiseai.com"));
      ("timeout", VNum (number_of_Z 30000));
      ("retries", VNum (number_of_Z 3));
      ("enableLogging", VBool true);
      ("enableCaching", VBool true) ].

Definition FLOWISE_ENDPOINTS : object :=
  list_to_map
    [ ("assistants", VStr "/api/v1/assistants");
      ("attachments", VStr "/api/v1/attachments");
      ("documentStore", VStr "/api/v1/documents");
      ("leads", VStr "/api/v1/leads");
      ("ping", VStr "/api/v1/ping");
      ("prediction", VStr "/api/v1/prediction");
      ("tools", VStr "/api/v1/tools");
      ("upsertHistory", VStr "/api/v1/upsert-history");
      ("variables", VStr "/api/v1/variables");
      ("vectorUpsert", VStr "/api/v1/vector-upsert") ].

(** The keys of [FlowiseApiEndpoints]. *)
Definition endpoint_names : list string :=
  [ "assistants"; "attachments"; "documentStore"; "leads"; "ping";
    "prediction"; "tools"; "upsertHistory"; "variables"; "vectorUpsert" ].

(** ** The manager's state *)

Record FlowiseConfigManager : Type := {
  config : object;
  endpoints : object
}.

(** [new FlowiseConfigManager(config)]; [None] is the omitted argument,
    which the default parameter turns into [{}]. *)
Definition constructor (env : gmap string string) (arg : option object) : FlowiseConfigManager :=
  let config := default ∅ arg in
  {| config := spread (DEFAULT_FLOWISE_CONFIG env) config;
     endpoints := FLOWISE_ENDPOINTS |}.

Definition getConfig (this : FlowiseConfigManager) : object := config this.

Definition getEndpoints (this : FlowiseConfigManager) : object := endpoints this.

(** ** The class

    The two string conversions that the language leaves to a long
    algorithm ([Number::toString]) or to the implementation (the source
    text of a built-in function) are parameters of the development. *)
Section Engine.

Variable Number_toString : number -> string.
Variable Function_toString : string -> string.

(** [ToString], as applied by a template literal. *)
Definition ToString (v : value) : string :=
  match v with
  | VUndefined => "undefined"
  | VNull => "null"
  | VBool true => "true"
  | VBool false => "false"
  | VNum x => Number_toString x
  | VStr s => s
  | VObject => "[object Object]"
  | VFunction name => Function_toString name
  end.

Definition buildUrl (this : FlowiseConfigManager) (endpoint : string) (path : value)
  : completion string :=
  let baseUrl := Get (config this) "baseUrl" in
  let endpointPath := Get (endpoints this) endpoint in
  let fullPath :=
    if ToBoolean path
    then VStr (ToString endpointPath +:+ "/" +:+ ToString path)
    else endpointPath in
  Normal (ToString baseUrl +:+ ToString fullPath).

Definition getHeaders (this : FlowiseConfigManager) : gmap string string :=
  let headers : gmap string string :=
    <["User-Agent" := "Zania-Platform/1.0.0"]>
      (<["Content-Type" := "application/json"]> ∅) in
  if ToBoolean (Get (config this) "apiKey")
  then <["Authorization" := "Bearer " +:+ ToString (Get (config this) "apiKey")]> headers
  else headers.

Record ValidationResult : Type := {
  valid : bool;
  errors : list string
}.

Definition validate (this : FlowiseConfigManager) : completion ValidationResult :=
  let errors : list string := [] in
  let errors :=
    if negb (ToBoolean (Get (config this) "apiKey"))
    then (errors ++ ["FLOWISE_API_KEY is required"])%list else errors in
  let errors :=
    if negb (ToBoolean (Get (config this) "baseUrl"))
    then (errors ++ ["FLOWISE_BASE_URL is required"])%list else errors in
  hasPrefix ← startsWith (Get (config this) "baseUrl") "http";
  let errors :=
    if negb hasPrefix
    then (errors ++ ["FLOWISE_BASE_URL must start with http:// or https://"])%list
    else errors in
  mret {| valid := Nat.eqb (length errors) 0; errors := errors |}.

Definition updateConfig (this : FlowiseConfigManager) (newConfig : object)
  : FlowiseConfigManager :=
  {| config := spread (config this) newConfig;
     endpoints := endpoints this |}.

Definition getBaseUrl (this : FlowiseConfigManager) : value := Get (config this) "baseUrl".

Definition getApiKey (this : FlowiseConfigManager) : value := Get (config this) "apiKey".

Definition getTimeout (this : FlowiseConfigManager) : value :=
  js_or (Get (config this) "timeout") (VNum (number_of_Z 30000)).

Definition getRetries (this : FlowiseConfigManager) : value :=
  js_or (Get (config this) "retries") (VNum (number_of_Z 3)).

Definition isLoggingEnabled (this : FlowiseConfigManager) : value :=
  js_nullish (Get (config this) "enableLogging") (VBool true).

Definition isCachingEnabled (this : FlowiseConfigManager) : value :=
  js_nullish (Get (config this) "enableCaching") (VBool true).

(** [createFlowiseConfig(config)] *)
Definition createFlowiseConfig (env : gmap string string) (arg : option object)
  : FlowiseConfigManager :=
  constructor env arg.

(** The module's singleton, [new FlowiseConfigManager()]. *)
Definition flowiseConfig (env : gmap string string) : FlowiseConfigManager :=
  constructor env None.

(** The managers a program can hold: built by the constructor, then
    updated any number of times. *)
Inductive reachable (env : gmap string string) : FlowiseConfigManager -> Prop :=
  | reachable_new (arg : option object) : reachable env (constructor env arg)
  | reachable_update (this : FlowiseConfigManager) (newConfig : object) :
      reachable env this -> reachable env (updateConfig this newConfig).

(** ** Sample managers, for the examples *)

Definition no_env : gmap string string := ∅.

(** [new FlowiseConfigManager({ baseUrl: 'https://api.flowiseai.com' })] *)
Definition public_manager : FlowiseConfigManager :=
  constructor no_env (Some {[ "baseUrl" := VStr "https://api.flowiseai.com" ]}).

(** [new FlowiseConfigManager({ apiKey: '', baseUrl: '' })] *)
Definition blank_manager : FlowiseConfigManager :=
  constructor no_env (Some {[ "apiKey" := VStr ""; "baseUrl" := VStr "" ]}).

(** [new FlowiseConfigManager({ apiKey: 'k', baseUrl: 'ftp://x' })] *)
Definition ftp_manager : FlowiseConfigManager :=
  constructor no_env (Some {[ "apiKey" := VStr "k"; "baseUrl" := VStr "ftp://x" ]}).

(** [new FlowiseConfigManager({ apiKey: 'secret' })] *)
Definition secret_manager : FlowiseConfigManager :=
  constructor no_env (Some {[ "apiKey" := VStr "secret" ]}).

(** [new FlowiseConfigManager({ timeout: NaN })] *)
Definition nan_timeout_manager : FlowiseConfigManager :=
  constructor no_env (Some {[ "timeout" := VNum S754_nan ]}).

(** [new FlowiseConfigManager({ timeout: 0 })] *)
Definition zero_timeout_manager : FlowiseConfigManager :=
  constructor no_env (Some {[ "timeout" := VNum (number_of_Z 0) ]}).

(** [new FlowiseConfigManager({ enableLogging: false, enableCaching: false })] *)
Definition quiet_manager : FlowiseConfigManager :=
  constructor no_env (Some {[ "enableLogging" := VBool false; "enableCaching" := VBool false ]}).

(** [new FlowiseConfigManager({ enableLogging: undefined })] *)
Definition unset_flags_manager : FlowiseConfigManager :=
  constructor no_env (Some {[ "enableLogging" := VUndefined ]}).

(** [{ timeout: 5000 }] *)
Definition timeout_5000 : object := {[ "timeout" := VNum (number_of_Z 5000) ]}.

(** [{ baseUrl: '' }] *)
Definition blank_baseUrl : object := {[ "baseUrl" := VStr "" ]}.

(** ** The declared types

    [interface FlowiseConfig], as far as a running program can observe it:
    the type of each property.  An optional property, and every property
    of a [Partial<FlowiseConfig>], may also hold [undefined]. *)

Definition is_string (v : value) : bool :=
  match v with VStr _ => true | _ => false end.

Definition is_number (v : value) : bool :=
  match v with VNum _ => true | _ => false end.

Definition is_boolean (v : value) : bool :=
  match v with VBool _ => true | _ => false end.

(** [T | undefined] *)
Definition optional (T : value -> bool) (v : value) : bool :=
  match v with VUndefined => true | _ => T v end.

Definition FlowiseConfig_properties : list (string * (value -> bool)) :=
  [ ("apiKey", is_string); ("baseUrl", is_string);
    ("timeout", is_number); ("retries", is_number);
    ("enableLogging", is_boolean); ("enableCaching", is_boolean) ].

(** [P : Partial<FlowiseConfig>]: a declared property that [P] has holds its
    type or [undefined]. *)
Definition is_Partial_FlowiseConfig (P : object) : Prop :=
  forall k T v, In (k, T) FlowiseConfig_properties -> P !! k = Some v -> optional T v = true.

(** What the spread leaves in [this.config]: every declared property is an
    own property, and holds its type or [undefined]. *)
Definition config_typed (c : object) : Prop :=
  forall k T, In (k, T) FlowiseConfig_properties ->
    exists v, c !! k = Some v /\ optional T v = true.

(** The managers built and updated with arguments of the declared type. *)
Inductive typed_reachable (env : gmap string string) : FlowiseConfigManager -> Prop :=
  | typed_new_default : typed_reachable env (constructor env None)
  | typed_new (P : object) :
      is_Partial_FlowiseConfig P -> typed_reachable env (constructor env (Some P))
  | typed_update (this : FlowiseConfigManager) (P : object) :
      typed_reachable env this -> is_Partial_FlowiseConfig P ->
      typed_reachable env (updateConfig this P).

(** A number that [||] keeps: neither a zero nor [NaN]. *)
Definition truthy_number (v : value) : Prop :=
  exists x, v = VNum x /\ ToBoolean (VNum x) = true.

(** [{ retries: 0 }], [{ baseUrl: undefined }], [{ apiKey: 'secret' }] *)
Definition retries_0 : object := {[ "retries" := VNum (number_of_Z 0) ]}.

Definition undefined_baseUrl : object := {[ "baseUrl" := VUndefined ]}.

Definition apiKey_secret : object := {[ "apiKey" := VStr "secret" ]}.

(** An environment that sets both variables. *)
Definition full_env : gmap string string :=
  {[ "FLOWISE_API_KEY" := "secret"; "FLOWISE_BASE_URL" := "http://localhost:3000" ]}.

(** ** Auxiliary facts *)

Lemma append_assoc (a b c : string) : (a +:+ b) +:+ c = a +:+ (b +:+ c).
Proof.
  induction a as [|ch a IH]; [reflexivity|].
  change ((String ch a +:+ b) +:+ c) with (String ch ((a +:+ b) +:+ c)).
  change (String ch a +:+ (b +:+ c)) with (String ch (a +:+ (b +:+ c))).
  by rewrite IH.
Qed.

Lemma Get_own (o : object) (k : string) (v : value) :
  o !! k = Some v -> Get o k = v.
Proof. unfold Get. by intros ->. Qed.

Lemma Get_missing (o : object) (k : string) :
  o !! k = None -> Object_prototype !! k = None -> Get o k = VUndefined.
Proof. unfold Get. by intros -> ->. Qed.

(** The table has an entry, a string, for each of the ten names and for
    no other name. *)
Lemma FLOWISE_ENDPOINTS_known (name : string) :
  In name endpoint_names -> exists p, FLOWISE_ENDPOINTS !! name = Some (VStr p).
Proof.
  unfold endpoint_names. simpl.
  intros H; repeat (destruct H as [<-|H]; [eexists; reflexivity|]); destruct H.
Qed.

Lemma FLOWISE_ENDPOINTS_unknown (name : string) :
  ~ In name endpoint_names -> FLOWISE_ENDPOINTS !! name = None.
Proof.
  intros H. apply not_elem_of_list_to_map_1.
  by rewrite list_elem_of_In.
Qed.

Lemma ToBoolean_nonempty (s : string) : s <> "" -> ToBoolean (VStr s) = true.
Proof. by destruct s. Qed.

(** The constructor and [updateConfig] leave [endpoints] on the table, and
    nothing else writes the field. *)
Lemma reachable_endpoints (env : gmap string string) (this : FlowiseConfigManager) :
  reachable env this -> endpoints this = FLOWISE_ENDPOINTS.
Proof. induction 1 as [arg|this newConfig _ IH]; [reflexivity|exact IH]. Qed.

(** ** [buildUrl] *)

Lemma buildUrl_no_path (this : FlowiseConfigManager) (endpoint : string) :
  buildUrl this endpoint VUndefined
  = Normal (ToString (Get (config this) "baseUrl")
            +:+ ToString (Get (endpoints this) endpoint)).
Proof. reflexivity. Qed.

Lemma buildUrl_empty_path (this : FlowiseConfigManager) (endpoint : string) :
  buildUrl this endpoint (VStr "") = buildUrl this endpoint VUndefined.
Proof. reflexivity. Qed.

Lemma buildUrl_with_path (this : FlowiseConfigManager) (endpoint s : string) :
  s <> "" ->
  buildUrl this endpoint (VStr s)
  = Normal (ToString (Get (config this) "baseUrl")
            +:+ (ToString (Get (endpoints this) endpoint) +:+ "/" +:+ s)).
Proof. intros Hs. unfold buildUrl. by rewrite (ToBoolean_nonempty s Hs). Qed.

(** C1, as amended.  A name outside the ten is excluded by the parameter
    type [keyof FlowiseApiEndpoints] only; [buildUrl] has no check of its
    own and throws nothing.  For every such name it returns a string, and
    when the name is not an inherited property of the table either, the
    lookup gives [undefined] and the result is [baseUrl + "undefined"], or
    [baseUrl + "undefined" + "/" + subPath] with a non-empty sub-path. *)
Theorem buildUrl_unknown_endpoint
    (this : FlowiseConfigManager) (endpoint b : string) :
  endpoints this = FLOWISE_ENDPOINTS ->
  Get (config this) "baseUrl" = VStr b ->
  ~ In endpoint endpoint_names ->
  (forall path, exists url, buildUrl this endpoint path = Normal url) /\
  (Object_prototype !! endpoint = None ->
     buildUrl this endpoint VUndefined = Normal (b +:+ "undefined") /\
     forall s, s <> "" ->
       buildUrl this endpoint (VStr s) = Normal (((b +:+ "undefined") +:+ "/") +:+ s)).
Proof.
  intros Hep Hbase Hname. split.
  - intros path. eexists. reflexivity.
  - intros Hproto.
    assert (Get (endpoints this) endpoint = VUndefined) as Hundef.
    { rewrite Hep. apply Get_missing; [by apply FLOWISE_ENDPOINTS_unknown|exact Hproto]. }
    split.
    + by rewrite buildUrl_no_path, Hbase, Hundef.
    + intros s Hs. rewrite (buildUrl_with_path _ _ _ Hs), Hbase, Hundef. cbn [ToString].
      by rewrite !append_assoc.
Qed.

(** C3, as amended.  For an endpoint name among the ten, [buildUrl(name)]
    is [baseUrl + endpointPath], and [buildUrl(name, subPath)] with a
    non-empty sub-path is [baseUrl + endpointPath + "/" + subPath]. *)
Theorem buildUrl_known_endpoint
    (this : FlowiseConfigManager) (endpoint b : string) :
  endpoints this = FLOWISE_ENDPOINTS ->
  Get (config this) "baseUrl" = VStr b ->
  In endpoint endpoint_names ->
  exists p,
    FLOWISE_ENDPOINTS !! endpoint = Some (VStr p) /\
    buildUrl this endpoint VUndefined = Normal (b +:+ p) /\
    forall s, s <> "" ->
      buildUrl this endpoint (VStr s) = Normal (((b +:+ p) +:+ "/") +:+ s).
Proof.
  intros Hep Hbase Hname.
  destruct (FLOWISE_ENDPOINTS_known endpoint Hname) as [p Hp].
  assert (Get (endpoints this) endpoint = VStr p) as Hpath.
  { rewrite Hep. by apply Get_own. }
  exists p. split; [exact Hp|]. split.
  - by rewrite buildUrl_no_path, Hbase, Hpath.
  - intros s Hs. rewrite (buildUrl_with_path _ _ _ Hs), Hbase, Hpath. cbn [ToString].
    by rewrite !append_assoc.
Qed.

(** C10.  For a known endpoint name, the empty string as sub-path gives
    what no sub-path gives, [baseUrl + endpointPath] with no slash added:
    the sub-path is tested for truthiness. *)
Theorem buildUrl_empty_sub_path
    (this : FlowiseConfigManager) (endpoint b : string) :
  endpoints this = FLOWISE_ENDPOINTS ->
  Get (config this) "baseUrl" = VStr b ->
  In endpoint endpoint_names ->
  buildUrl this endpoint (VStr "") = buildUrl this endpoint VUndefined /\
  exists p,
    FLOWISE_ENDPOINTS !! endpoint = Some (VStr p) /\
    buildUrl this endpoint (VStr "") = Normal (b +:+ p).
Proof.
  intros Hep Hbase Hname. split; [apply buildUrl_empty_path|].
  destruct (FLOWISE_ENDPOINTS_known endpoint Hname) as [p Hp].
  exists p. split; [exact Hp|].
  rewrite buildUrl_empty_path, buildUrl_no_path, Hbase, Hep.
  by rewrite (Get_own _ _ _ Hp).
Qed.

(** ** [getHeaders] *)

(** C5.  The headers are [Content-Type] and [User-Agent] with their fixed
    values and no other name, except [Authorization: Bearer <apiKey>], which
    is there exactly when [apiKey] is not the empty string. *)
Theorem getHeaders_entries (this : FlowiseConfigManager) (k : string) :
  Get (config this) "apiKey" = VStr k ->
  getHeaders this !! "Content-Type" = Some "application/json" /\
  getHeaders this !! "User-Agent" = Some "Zania-Platform/1.0.0" /\
  (k <> "" -> getHeaders this !! "Authorization" = Some ("Bearer " +:+ k)) /\
  (k = "" -> getHeaders this !! "Authorization" = None) /\
  (is_Some (getHeaders this !! "Authorization") <-> k <> "") /\
  (forall h, h <> "Content-Type" -> h <> "User-Agent" -> h <> "Authorization" ->
     getHeaders this !! h = None).
Proof.
  intros Hkey. unfold getHeaders. rewrite Hkey.
  destruct k as [|c k]; cbn [ToBoolean ToString].
  - split; [done|]. split; [done|]. split; [done|]. split; [done|]. split.
    + split; [intros [v Hv]; by simplify_map_eq | done].
    + intros h H1 H2 _. by simplify_map_eq.
  - split; [by simplify_map_eq|]. split; [by simplify_map_eq|].
    split; [intros _; by simplify_map_eq|]. split; [done|]. split.
    + split; [done | intros _; by simplify_map_eq].
    + intros h H1 H2 H3. by simplify_map_eq.
Qed.

(** ** [validate] *)

(** On a record whose [baseUrl] is a string, as [FlowiseConfig] declares,
    [validate] returns, and its error list is made of the three messages,
    each present or not by its own test. *)
Lemma validate_returns (this : FlowiseConfigManager) (b : string) :
  Get (config this) "baseUrl" = VStr b ->
  validate this =
  Normal
    (let errors :=
       ((if ToBoolean (Get (config this) "apiKey")
         then [] else ["FLOWISE_API_KEY is required"])
        ++ (if ToBoolean (VStr b) then [] else ["FLOWISE_BASE_URL is required"])
        ++ (if String.prefix "http" b
            then [] else ["FLOWISE_BASE_URL must start with http:// or https://"]))%list in
     {| valid := Nat.eqb (length errors) 0; errors := errors |}).
Proof.
  intros Hbase. unfold validate. rewrite Hbase. cbn [startsWith mbind completion_bind].
  by destruct (ToBoolean (Get (config this) "apiKey")), (ToBoolean (VStr b)),
    (String.prefix "http" b).
Qed.

(** Off the declared type the call does not return: a [baseUrl] overwritten
    with [undefined] makes [startsWith] throw. *)
Example validate_throws_without_baseUrl :
  validate (constructor no_env (Some {[ "baseUrl" := VUndefined ]})) = Throw TypeError.
Proof. reflexivity. Qed.

(** C2, as amended.  With [apiKey] and [baseUrl] both the empty string the
    three checks all fire: [validate] returns three messages, apiKey-missing,
    baseUrl-missing, then the protocol-prefix message. *)
Theorem validate_blank (this : FlowiseConfigManager) :
  Get (config this) "apiKey" = VStr "" ->
  Get (config this) "baseUrl" = VStr "" ->
  validate this =
  Normal {| valid := false;
            errors := [ "FLOWISE_API_KEY is required";
                        "FLOWISE_BASE_URL is required";
                        "FLOWISE_BASE_URL must start with http:// or https://" ] |}.
Proof.
  intros Hkey Hbase. by rewrite (validate_returns this "" Hbase), Hkey.
Qed.

(** C7.  [validate] returns with [valid = true] exactly when its error list
    is empty; on [{ apiKey: "k", baseUrl: "ftp://x" }] the list is the
    protocol-prefix message alone and [valid] is [false]. *)
Theorem validate_valid_iff_no_errors (this : FlowiseConfigManager) (b : string) :
  Get (config this) "baseUrl" = VStr b ->
  exists r,
    validate this = Normal r /\
    (valid r = true <-> errors r = []) /\
    (Get (config this) "apiKey" = VStr "k" -> b = "ftp://x" ->
       r = {| valid := false;
              errors := ["FLOWISE_BASE_URL must start with http:// or https://"] |}).
Proof.
  intros Hbase. eexists. split; [exact (validate_returns this b Hbase)|].
  cbn zeta. split.
  - cbn [valid errors].
    match goal with |- (length ?l =? 0)%nat = true <-> _ => destruct l end;
      cbn; split; congruence.
  - intros -> ->. reflexivity.
Qed.

(** ** The constructor and [updateConfig] *)

Lemma lookup_spread (a b : object) (k : string) :
  spread a b !! k = match b !! k with Some v => Some v | None => a !! k end.
Proof.
  unfold spread. rewrite lookup_union. by destruct (b !! k), (a !! k).
Qed.

(** The default record, field by field. *)
Lemma DEFAULT_FLOWISE_CONFIG_fields (env : gmap string string) :
  DEFAULT_FLOWISE_CONFIG env !! "apiKey"
    = Some (VStr (default "" (env !! "FLOWISE_API_KEY"))) /\
  DEFAULT_FLOWISE_CONFIG env !! "baseUrl"
    = Some (VStr (match env !! "FLOWISE_BASE_URL" with
                  | Some (String c s) => String c s
                  | _ => "https://api.flowiseai.com"
                  end)) /\
  DEFAULT_FLOWISE_CONFIG env !! "timeout" = Some (VNum (number_of_Z 30000)) /\
  DEFAULT_FLOWISE_CONFIG env !! "retries" = Some (VNum (number_of_Z 3)) /\
  DEFAULT_FLOWISE_CONFIG env !! "enableLogging" = Some (VBool true) /\
  DEFAULT_FLOWISE_CONFIG env !! "enableCaching" = Some (VBool true) /\
  (forall k, ~ In k ["apiKey"; "baseUrl"; "timeout"; "retries";
                     "enableLogging"; "enableCaching"] ->
     DEFAULT_FLOWISE_CONFIG env !! k = None).
Proof.
  unfold DEFAULT_FLOWISE_CONFIG, process_env, js_or.
  repeat split; try reflexivity.
  - cbn [list_to_map foldr uncurry]. rewrite lookup_insert_eq.
    by destruct (env !! "FLOWISE_API_KEY") as [[|c s]|].
  - cbn [list_to_map foldr uncurry]. rewrite lookup_insert_ne by done.
    rewrite lookup_insert_eq.
    by destruct (env !! "FLOWISE_BASE_URL") as [[|c s]|].
  - intros k Hk. apply not_elem_of_list_to_map_1.
    by rewrite list_elem_of_In.
Qed.

(** C4.  After construction from a partial record [P], [getConfig()] has,
    for each property name, [P]'s value when [P] has the property and the
    default record's value otherwise; the default record is [apiKey] from
    [FLOWISE_API_KEY] or empty, [baseUrl] from [FLOWISE_BASE_URL] or the
    fallback host, [timeout] 30000, [retries] 3 and both flags [true]. *)
Theorem constructor_overlay (env : gmap string string) (P : object) :
  (forall k v, P !! k = Some v ->
     getConfig (constructor env (Some P)) !! k = Some v) /\
  (forall k, P !! k = None ->
     getConfig (constructor env (Some P)) !! k = DEFAULT_FLOWISE_CONFIG env !! k) /\
  getConfig (constructor env None) = DEFAULT_FLOWISE_CONFIG env /\
  DEFAULT_FLOWISE_CONFIG env !! "apiKey"
    = Some (VStr (default "" (env !! "FLOWISE_API_KEY"))) /\
  DEFAULT_FLOWISE_CONFIG env !! "baseUrl"
    = Some (VStr (match env !! "FLOWISE_BASE_URL" with
                  | Some (String c s) => String c s
                  | _ => "https://api.flowiseai.com"
                  end)) /\
  DEFAULT_FLOWISE_CONFIG env !! "timeout" = Some (VNum (number_of_Z 30000)) /\
  DEFAULT_FLOWISE_CONFIG env !! "retries" = Some (VNum (number_of_Z 3)) /\
  DEFAULT_FLOWISE_CONFIG env !! "enableLogging" = Some (VBool true) /\
  DEFAULT_FLOWISE_CONFIG env !! "enableCaching" = Some (VBool true) /\
  (forall k, ~ In k ["apiKey"; "baseUrl"; "timeout"; "retries";
                     "enableLogging"; "enableCaching"] ->
     DEFAULT_FLOWISE_CONFIG env !! k = None).
Proof.
  split; [|split; [|split]].
  - intros k v Hk.
    change (getConfig (constructor env (Some P))) with (spread (DEFAULT_FLOWISE_CONFIG env) P).
    by rewrite lookup_spread, Hk.
  - intros k Hk.
    change (getConfig (constructor env (Some P))) with (spread (DEFAULT_FLOWISE_CONFIG env) P).
    by rewrite lookup_spread, Hk.
  - change (getConfig (constructor env None)) with (spread (DEFAULT_FLOWISE_CONFIG env) ∅).
    unfold spread. by rewrite (left_id_L ∅ (∪)).
  - apply DEFAULT_FLOWISE_CONFIG_fields.
Qed.

(** C6.  [updateConfig] gives each property of the partial record its new
    value and leaves every other property, and the endpoint table, as they
    were.  It runs no validation: the call is the merge and nothing else, so
    a record that [validate] rejects is stored like any other. *)
Theorem updateConfig_frame (this : FlowiseConfigManager) (P : object) :
  (forall k v, P !! k = Some v -> config (updateConfig this P) !! k = Some v) /\
  (forall k, P !! k = None -> config (updateConfig this P) !! k = config this !! k) /\
  (forall k, P !! k = None ->
     Get (config (updateConfig this P)) k = Get (config this) k) /\
  endpoints (updateConfig this P) = endpoints this /\
  (forall b, P !! "baseUrl" = Some (VStr b) -> String.prefix "http" b = false ->
     Get (config (updateConfig this P)) "baseUrl" = VStr b /\
     exists r, validate (updateConfig this P) = Normal r /\ valid r = false).
Proof.
  assert (forall k, config (updateConfig this P) !! k
                    = match P !! k with Some v => Some v | None => config this !! k end)
    as Hlook by (intros k; apply lookup_spread).
  split; [|split; [|split; [|split]]].
  - intros k v Hk. by rewrite Hlook, Hk.
  - intros k Hk. by rewrite Hlook, Hk.
  - intros k Hk. unfold Get. by rewrite Hlook, Hk.
  - reflexivity.
  - intros b HP Hprefix.
    assert (Get (config (updateConfig this P)) "baseUrl" = VStr b) as Hbase
      by (apply Get_own; by rewrite Hlook, HP).
    split; [exact Hbase|].
    eexists. split; [exact (validate_returns _ b Hbase)|].
    cbn zeta. cbn [valid]. rewrite Hprefix.
    by destruct (ToBoolean (Get _ "apiKey")), (ToBoolean (VStr b)).
Qed.

(** ** The accessors *)

(** C8, as amended.  [getTimeout()] is 30000 when the stored timeout is
    unset ([undefined], [null] or absent), [+0], [-0] or [NaN], and the
    stored number otherwise. *)
Theorem getTimeout_falsy_default (this : FlowiseConfigManager) :
  (Get (config this) "timeout" = VUndefined \/
   Get (config this) "timeout" = VNull \/
   (exists sign, Get (config this) "timeout" = VNum (S754_zero sign)) \/
   Get (config this) "timeout" = VNum S754_nan ->
   getTimeout this = VNum (number_of_Z 30000)) /\
  (forall x, Get (config this) "timeout" = VNum x ->
     (forall sign, x <> S754_zero sign) -> x <> S754_nan ->
     getTimeout this = VNum x).
Proof.
  unfold getTimeout, js_or. split.
  - intros [-> | [-> | [[sign ->] | ->]]]; reflexivity.
  - intros x -> Hzero Hnan. destruct x as [sign|sign| |sign m e]; try reflexivity.
    + by destruct (Hzero sign).
    + by destruct Hnan.
Qed.

(** C9.  [isLoggingEnabled()] and [isCachingEnabled()] answer the stored
    flag when it is a boolean, so [false] for an explicit [false], and
    answer the default [true] when the flag is [undefined], [null] or
    absent; an answer [true] therefore comes from a stored [true] or from an
    unset flag, never from an explicit [false]. *)
Theorem flags_nullish_default (this : FlowiseConfigManager) :
  (Get (config this) "enableLogging" = VBool false ->
     isLoggingEnabled this = VBool false) /\
  (Get (config this) "enableLogging" = VUndefined \/
   Get (config this) "enableLogging" = VNull ->
     isLoggingEnabled this = VBool true) /\
  (forall flag, Get (config this) "enableLogging" = VBool flag ->
     isLoggingEnabled this = VBool flag) /\
  (isLoggingEnabled this = VBool true ->
     Get (config this) "enableLogging" = VBool true \/
     Get (config this) "enableLogging" = VUndefined \/
     Get (config this) "enableLogging" = VNull) /\
  (Get (config this) "enableCaching" = VBool false ->
     isCachingEnabled this = VBool false) /\
  (Get (config this) "enableCaching" = VUndefined \/
   Get (config this) "enableCaching" = VNull ->
     isCachingEnabled this = VBool true) /\
  (forall flag, Get (config this) "enableCaching" = VBool flag ->
     isCachingEnabled this = VBool flag) /\
  (isCachingEnabled this = VBool true ->
     Get (config this) "enableCaching" = VBool true \/
     Get (config this) "enableCaching" = VUndefined \/
     Get (config this) "enableCaching" = VNull).
Proof.
  unfold isLoggingEnabled, isCachingEnabled, js_nullish.
  split; [|split; [|split; [|split; [|split; [|split; [|split]]]]]].
  - by intros ->.
  - by intros [-> | ->].
  - by intros flag ->.
  - destruct (Get (config this) "enableLogging"); intros H; auto; discriminate.
  - by intros ->.
  - by intros [-> | ->].
  - by intros flag ->.
  - destruct (Get (config this) "enableCaching"); intros H; auto; discriminate.
Qed.

(** ** Further properties of the class *)

Lemma length_append (a b : string) :
  String.length (a +:+ b) = String.length a + String.length b.
Proof.
  induction a as [|ch a IH]; [reflexivity|].
  change (String ch a +:+ b) with (String ch (a +:+ b)). cbn [String.length].
  by rewrite IH.
Qed.

Lemma append_cancel_l (a p q : string) : a +:+ p = a +:+ q -> p = q.
Proof.
  induction a as [|ch a IH]; [by intros H|].
  change (String ch a +:+ p) with (String ch (a +:+ p)).
  change (String ch a +:+ q) with (String ch (a +:+ q)).
  intros H. injection H as H. by apply IH.
Qed.

Lemma append_cancel_r (p q t : string) : p +:+ t = q +:+ t -> p = q.
Proof.
  revert q. induction p as [|c p IH]; intros [|d q] H.
  - reflexivity.
  - apply (f_equal String.length) in H. rewrite !length_append in H.
    cbn [String.length] in H. lia.
  - apply (f_equal String.length) in H. rewrite !length_append in H.
    cbn [String.length] in H. lia.
  - change (String c p +:+ t) with (String c (p +:+ t)) in H.
    change (String d q +:+ t) with (String d (q +:+ t)) in H.
    injection H as -> H. f_equal. by apply IH.
Qed.

Lemma prefix_append (a b : string) : String.prefix a (a +:+ b) = true.
Proof.
  induction a as [|ch a IH]; [by destruct b|].
  change (String ch a +:+ b) with (String ch (a +:+ b)). cbn [String.prefix].
  by destruct (Ascii.ascii_dec ch ch).
Qed.

Lemma config_constructor (env : gmap string string) (arg : option object) (k : string) :
  config (constructor env arg) !! k
  = match default ∅ arg !! k with
    | Some v => Some v
    | None => DEFAULT_FLOWISE_CONFIG env !! k
    end.
Proof. apply lookup_spread. Qed.

Lemma config_updateConfig (this : FlowiseConfigManager) (P : object) (k : string) :
  config (updateConfig this P) !! k
  = match P !! k with Some v => Some v | None => config this !! k end.
Proof. apply lookup_spread. Qed.

Lemma Get_updateConfig_other (this : FlowiseConfigManager) (P : object) (k : string) :
  P !! k = None -> Get (config (updateConfig this P)) k = Get (config this) k.
Proof. intros HP. unfold Get. by rewrite config_updateConfig, HP. Qed.

Lemma DEFAULT_FLOWISE_CONFIG_typed (env : gmap string string) :
  config_typed (DEFAULT_FLOWISE_CONFIG env).
Proof.
  destruct (DEFAULT_FLOWISE_CONFIG_fields env) as (Hk & Hb & Ht & Hr & Hl & Hc & _).
  intros k T Hin. simpl in Hin.
  repeat (destruct Hin as [[= <- <-]|Hin]; [eexists; split; [eassumption|reflexivity]|]).
  destruct Hin.
Qed.

Lemma spread_typed (c P : object) :
  config_typed c -> is_Partial_FlowiseConfig P -> config_typed (spread c P).
Proof.
  intros Hc HP k T Hin. rewrite lookup_spread.
  destruct (P !! k) as [v|] eqn:Hk.
  - exists v. split; [reflexivity|]. by apply (HP k T v).
  - by apply Hc.
Qed.

Lemma typed_reachable_config (env : gmap string string) (this : FlowiseConfigManager) :
  typed_reachable env this -> config_typed (config this).
Proof.
  induction 1 as [|P HP|this P _ IH HP].
  - change (config (constructor env None)) with (spread (DEFAULT_FLOWISE_CONFIG env) ∅).
    apply spread_typed; [apply DEFAULT_FLOWISE_CONFIG_typed|]. intros k T v _ Hk.
    by rewrite lookup_empty in Hk.
  - change (config (constructor env (Some P))) with (spread (DEFAULT_FLOWISE_CONFIG env) P).
    apply spread_typed; [apply DEFAULT_FLOWISE_CONFIG_typed|exact HP].
  - by apply spread_typed.
Qed.

Lemma js_or_number (v d : value) :
  optional is_number v = true -> truthy_number d -> truthy_number (js_or v d).
Proof.
  intros Hv Hd. unfold js_or.
  destruct v as [| |b|x|s| |name]; try discriminate Hv; try exact Hd.
  destruct (ToBoolean (VNum x)) eqn:Hx; [|exact Hd].
  exists x. by split.
Qed.

(** X1.  [getRetries()] is 3 when the stored count is unset, a zero or
    [NaN], and the stored number otherwise; so [updateConfig({ retries: 0 })]
    does not turn retries off. *)
Theorem getRetries_falsy_default (this : FlowiseConfigManager) (P : object) (x : number) :
  P !! "retries" = Some (VNum x) ->
  getRetries (updateConfig this P)
  = match x with
    | S754_zero _ | S754_nan => VNum (number_of_Z 3)
    | _ => VNum x
    end /\
  (Get (config this) "retries" = VUndefined \/ Get (config this) "retries" = VNull ->
   getRetries this = VNum (number_of_Z 3)).
Proof.
  intros HP. split.
  - unfold getRetries.
    rewrite (Get_own _ _ (VNum x)) by (by rewrite config_updateConfig, HP).
    by destruct x.
  - unfold getRetries. by intros [-> | ->].
Qed.

(** X2.  Whatever sequence of well-typed calls built a manager, its endpoint
    table is [FLOWISE_ENDPOINTS], each declared property is an own property
    of its record holding its type or [undefined], [getTimeout()] and
    [getRetries()] are numbers other than 0 and [NaN], and the two flag
    accessors are booleans. *)
Theorem typed_reachable_accessors (env : gmap string string) (this : FlowiseConfigManager) :
  typed_reachable env this ->
  getEndpoints this = FLOWISE_ENDPOINTS /\
  config_typed (getConfig this) /\
  truthy_number (getTimeout this) /\
  truthy_number (getRetries this) /\
  is_boolean (isLoggingEnabled this) = true /\
  is_boolean (isCachingEnabled this) = true.
Proof.
  intros Hreach. split.
  { clear -Hreach. induction Hreach as [|P HP|this P _ IH HP]; done. }
  pose proof (typed_reachable_config env this Hreach) as Hty.
  split; [exact Hty|].
  assert (forall k T, In (k, T) FlowiseConfig_properties ->
            optional T (Get (config this) k) = true) as Hget.
  { intros k T Hin. destruct (Hty k T Hin) as [v [Hv Hopt]].
    by rewrite (Get_own _ _ _ Hv). }
  split; [|split; [|split]].
  - apply js_or_number; [apply Hget; simpl; auto 10|].
    eexists. split; reflexivity.
  - apply js_or_number; [apply Hget; simpl; auto 10|].
    eexists. split; reflexivity.
  - unfold isLoggingEnabled, js_nullish.
    pose proof (Hget "enableLogging" is_boolean) as H.
    destruct (Get (config this) "enableLogging"); try reflexivity;
      apply H; simpl; auto 10.
  - unfold isCachingEnabled, js_nullish.
    pose proof (Hget "enableCaching" is_boolean) as H.
    destruct (Get (config this) "enableCaching"); try reflexivity;
      apply H; simpl; auto 10.
Qed.

(** X3.  Two updates in a row are one update with the second partial record
    spread over the first; an update repeated, or with [{}], changes
    nothing more. *)
Theorem updateConfig_compose (this : FlowiseConfigManager) (P Q : object) :
  updateConfig (updateConfig this P) Q = updateConfig this (spread P Q) /\
  updateConfig (updateConfig this P) P = updateConfig this P /\
  config (updateConfig this ∅) = config this.
Proof.
  unfold updateConfig, spread. cbn [config endpoints]. split; [|split].
  - f_equal. by rewrite (assoc_L (∪)).
  - f_equal. by rewrite (assoc_L (∪)), (idemp_L (∪)).
  - by rewrite (left_id_L ∅ (∪)).
Qed.

(** X4.  Constructing with a partial record is constructing with none and
    then updating with it: [createFlowiseConfig(P)] and the singleton
    updated with [P] are the same manager. *)
Theorem constructor_as_update (env : gmap string string) (P : object) :
  createFlowiseConfig env (Some P) = updateConfig (flowiseConfig env) P /\
  createFlowiseConfig env None = flowiseConfig env /\
  createFlowiseConfig env (Some ∅) = flowiseConfig env.
Proof.
  unfold createFlowiseConfig, flowiseConfig, constructor, updateConfig, spread.
  cbn [config endpoints default].
  assert (∅ ∪ DEFAULT_FLOWISE_CONFIG env = DEFAULT_FLOWISE_CONFIG env) as ->
    by apply map_empty_union.
  done.
Qed.

(** X5.  On a record of the declared type, [validate()] answers
    [valid = true] exactly when [apiKey] is not empty and [baseUrl] begins
    with the four characters [http]; nothing more of the URL is looked at. *)
Theorem validate_accepts (this : FlowiseConfigManager) (k b : string) :
  Get (config this) "apiKey" = VStr k ->
  Get (config this) "baseUrl" = VStr b ->
  exists r,
    validate this = Normal r /\
    (valid r = true <-> k <> "" /\ String.prefix "http" b = true).
Proof.
  intros Hkey Hbase. eexists. split; [exact (validate_returns this b Hbase)|].
  rewrite Hkey. cbn zeta. cbn [valid].
  destruct k as [|c k], b as [|d b]; cbn [ToBoolean];
    try (destruct (String.prefix "http" (String d b)));
    cbn; split; try done; intros [H1 H2]; done.
Qed.

(** X6.  Each message of [validate()] reports its own test: the apiKey
    message is there exactly when [apiKey] is empty, the baseUrl-required
    message exactly when [baseUrl] is empty, the protocol message exactly
    when [baseUrl] does not begin with [http].  So the baseUrl-required
    message never comes without the protocol message. *)
Theorem validate_messages (this : FlowiseConfigManager) (k b : string) :
  Get (config this) "apiKey" = VStr k ->
  Get (config this) "baseUrl" = VStr b ->
  exists r,
    validate this = Normal r /\
    (In "FLOWISE_API_KEY is required" (errors r) <-> k = "") /\
    (In "FLOWISE_BASE_URL is required" (errors r) <-> b = "") /\
    (In "FLOWISE_BASE_URL must start with http:// or https://" (errors r)
       <-> String.prefix "http" b = false) /\
    (In "FLOWISE_BASE_URL is required" (errors r) ->
       In "FLOWISE_BASE_URL must start with http:// or https://" (errors r)).
Proof.
  clear Number_toString Function_toString.
  intros Hkey Hbase. eexists. split; [exact (validate_returns this b Hbase)|].
  rewrite Hkey. cbn zeta. cbn [errors].
  destruct k as [|c k], b as [|d b]; cbn [ToBoolean];
    try (destruct (String.prefix "http" (String d b)));
    cbn; intuition (discriminate || auto).
Qed.

(** X7.  [validate()] throws a [TypeError] exactly when the stored
    [baseUrl] is not a string, and returns a result otherwise. *)
Theorem validate_throws_iff (this : FlowiseConfigManager) :
  (validate this = Throw TypeError <-> is_string (Get (config this) "baseUrl") = false) /\
  ((exists r, validate this = Normal r) <-> is_string (Get (config this) "baseUrl") = true).
Proof.
  unfold validate.
  destruct (Get (config this) "baseUrl") as [| |f|x|b| |name];
    cbn [startsWith mbind completion_bind is_string];
    split; split; intros H; first [done | by destruct H | by eexists].
Qed.

(** X8.  The singleton, built from the environment alone: [validate()]
    returns, never with the baseUrl-required message (an empty or missing
    [FLOWISE_BASE_URL] gives way to the fallback host), and with
    [valid = true] exactly when [FLOWISE_API_KEY] is set and not empty and
    [FLOWISE_BASE_URL], if set and not empty, begins with [http]. *)
Theorem validate_singleton (env : gmap string string) :
  exists r,
    validate (flowiseConfig env) = Normal r /\
    ~ In "FLOWISE_BASE_URL is required" (errors r) /\
    (valid r = true <->
       (exists k, env !! "FLOWISE_API_KEY" = Some k /\ k <> "") /\
       (forall b, env !! "FLOWISE_BASE_URL" = Some b -> b <> "" ->
          String.prefix "http" b = true)).
Proof.
  clear Number_toString Function_toString.
  destruct (DEFAULT_FLOWISE_CONFIG_fields env) as (Hk & Hb & _).
  assert (forall k, config (flowiseConfig env) !! k = DEFAULT_FLOWISE_CONFIG env !! k)
    as Hcfg by (intros k; unfold flowiseConfig; by rewrite config_constructor).
  pose proof (Get_own _ _ _ (eq_trans (Hcfg "apiKey") Hk)) as Hkey.
  pose proof (Get_own _ _ _ (eq_trans (Hcfg "baseUrl") Hb)) as Hbase.
  clear Hk Hb Hcfg.
  set (K := default "" (env !! "FLOWISE_API_KEY")) in *.
  set (B := match env !! "FLOWISE_BASE_URL" with
            | Some (String c s) => String c s
            | _ => "https://api.flowiseai.com"
            end) in *.
  assert (K <> "" <-> exists k, env !! "FLOWISE_API_KEY" = Some k /\ k <> "") as HK.
  { subst K. destruct (env !! "FLOWISE_API_KEY") as [k|]; cbn.
    - split; [intros H; by exists k|]. by intros [k' [[= <-] H]].
    - split; [done|]. by intros [k' [H _]]. }
  assert (B <> "" /\
          (String.prefix "http" B = true <->
           forall b, env !! "FLOWISE_BASE_URL" = Some b -> b <> "" ->
             String.prefix "http" b = true)) as [HBne HB].
  { subst B. destruct (env !! "FLOWISE_BASE_URL") as [[|d b]|].
    - split; [done|]. split; [by intros _ b' [= <-] H|reflexivity].
    - split; [done|]. split; [by intros H b' [= <-] _|].
      intros H. by apply (H _ eq_refl).
    - split; [done|]. split; [by intros _ b' H|reflexivity]. }
  clearbody K B.
  eexists. split; [exact (validate_returns _ B Hbase)|].
  rewrite Hkey. cbn zeta. cbn [valid errors]. rewrite <- HK, <- HB.
  destruct K as [|c K], B as [|d B]; try done; cbn [ToBoolean];
    destruct (String.prefix "http" (String d B)); cbn;
    (split; [intuition discriminate|]); split; try done; by intros [? ?].
Qed.

(** The endpoint table: its paths all begin with [/api/v1/], and no two
    names share a path. *)
Lemma FLOWISE_ENDPOINTS_api_v1 (name : string) :
  In name endpoint_names ->
  exists rest, FLOWISE_ENDPOINTS !! name = Some (VStr ("/api/v1/" +:+ rest)).
Proof.
  unfold endpoint_names. simpl.
  intros H; repeat (destruct H as [<-|H]; [eexists; reflexivity|]); destruct H.
Qed.

Lemma FLOWISE_ENDPOINTS_inj (e1 e2 p : string) :
  In e1 endpoint_names -> In e2 endpoint_names ->
  FLOWISE_ENDPOINTS !! e1 = Some (VStr p) ->
  FLOWISE_ENDPOINTS !! e2 = Some (VStr p) ->
  e1 = e2.
Proof.
  unfold endpoint_names. simpl. intros H1 H2.
  repeat (destruct H1 as [<-|H1]); try (by destruct H1);
    intros Hp1; vm_compute in Hp1; injection Hp1 as <-;
    repeat (destruct H2 as [<-|H2]); try (by destruct H2);
    intros Hp2; vm_compute in Hp2; first [reflexivity | discriminate Hp2].
Qed.

(** X9.  On one manager, two different endpoint names of the table never
    give the same URL, with no sub-path or with the same sub-path. *)
Theorem buildUrl_distinct_endpoints
    (this : FlowiseConfigManager) (b e1 e2 : string) (path : value) :
  endpoints this = FLOWISE_ENDPOINTS ->
  Get (config this) "baseUrl" = VStr b ->
  In e1 endpoint_names -> In e2 endpoint_names ->
  path = VUndefined \/ (exists s, path = VStr s) ->
  buildUrl this e1 path = buildUrl this e2 path ->
  e1 = e2.
Proof.
  intros Hep Hbase H1 H2 Hpath Heq.
  destruct (FLOWISE_ENDPOINTS_known e1 H1) as [p1 Hp1].
  destruct (FLOWISE_ENDPOINTS_known e2 H2) as [p2 Hp2].
  apply (FLOWISE_ENDPOINTS_inj e1 e2 p1 H1 H2 Hp1).
  enough (p2 = p1) as <- by exact Hp2.
  pose proof (Get_own _ _ _ Hp1) as G1. pose proof (Get_own _ _ _ Hp2) as G2.
  rewrite <- Hep in G1, G2.
  assert (buildUrl this e1 VUndefined = buildUrl this e2 VUndefined -> p2 = p1) as Hno.
  { rewrite !buildUrl_no_path, Hbase, G1, G2. cbn [ToString].
    intros [= H]. symmetry. by apply (append_cancel_l b). }
  destruct Hpath as [-> | [s ->]]; [by apply Hno|].
  destruct s as [|c s]; [by apply Hno|].
  rewrite !buildUrl_with_path, Hbase, G1, G2 in Heq by discriminate.
  cbn [ToString] in Heq. injection Heq as Heq.
  apply append_cancel_l in Heq. symmetry. by apply append_cancel_r in Heq.
Qed.

(** X10.  Every URL built for a name of the table begins with the base URL
    followed by [/api/v1/], whatever the sub-path. *)
Theorem buildUrl_api_v1
    (this : FlowiseConfigManager) (b endpoint : string) (path : value) :
  endpoints this = FLOWISE_ENDPOINTS ->
  Get (config this) "baseUrl" = VStr b ->
  In endpoint endpoint_names ->
  exists url,
    buildUrl this endpoint path = Normal url /\
    String.prefix (b +:+ "/api/v1/") url = true.
Proof.
  intros Hep Hbase Hname.
  destruct (FLOWISE_ENDPOINTS_api_v1 endpoint Hname) as [rest Hrest].
  pose proof (Get_own _ _ _ Hrest) as G. rewrite <- Hep in G.
  eexists. split; [reflexivity|]. rewrite Hbase, G.
  destruct (ToBoolean path); cbn [ToString];
    rewrite ?append_assoc, <- (append_assoc b "/api/v1/"); apply prefix_append.
Qed.

(** X11.  An update that does not name a property leaves what is computed
    from that property as it was: the URLs when [baseUrl] is not named, the
    headers when [apiKey] is not, the verdict of [validate()] when neither
    is, and likewise each of the four other accessors. *)
Theorem updateConfig_unrelated (this : FlowiseConfigManager) (P : object) :
  (P !! "baseUrl" = None ->
     forall endpoint path,
       buildUrl (updateConfig this P) endpoint path = buildUrl this endpoint path) /\
  (P !! "apiKey" = None -> getHeaders (updateConfig this P) = getHeaders this) /\
  (P !! "apiKey" = None -> P !! "baseUrl" = None ->
     validate (updateConfig this P) = validate this) /\
  (P !! "timeout" = None -> getTimeout (updateConfig this P) = getTimeout this) /\
  (P !! "retries" = None -> getRetries (updateConfig this P) = getRetries this) /\
  (P !! "enableLogging" = None ->
     isLoggingEnabled (updateConfig this P) = isLoggingEnabled this) /\
  (P !! "enableCaching" = None ->
     isCachingEnabled (updateConfig this P) = isCachingEnabled this).
Proof.
  split; [|split; [|split; [|split; [|split; [|split]]]]].
  - intros HP endpoint path. unfold buildUrl.
    by rewrite (Get_updateConfig_other _ _ _ HP).
  - intros HP. unfold getHeaders. by rewrite (Get_updateConfig_other _ _ _ HP).
  - intros HK HB. unfold validate.
    by rewrite (Get_updateConfig_other _ _ _ HK), (Get_updateConfig_other _ _ _ HB).
  - intros HP. unfold getTimeout. by rewrite (Get_updateConfig_other _ _ _ HP).
  - intros HP. unfold getRetries. by rewrite (Get_updateConfig_other _ _ _ HP).
  - intros HP. unfold isLoggingEnabled. by rewrite (Get_updateConfig_other _ _ _ HP).
  - intros HP. unfold isCachingEnabled. by rewrite (Get_updateConfig_other _ _ _ HP).
Qed.

(** X12.  A partial record may name a property and give it [undefined],
    and the spread then stores [undefined] over the default, whatever the
    environment holds: with [baseUrl: undefined] the base URL is
    [undefined], [validate()] throws and the URLs begin with the text
    [undefined]; with [apiKey: undefined] the key is [undefined], no
    [Authorization] header is sent and [validate()] asks for the key. *)
Theorem undefined_overrides_default (env : gmap string string) (P : object) :
  (P !! "baseUrl" = Some VUndefined ->
     getBaseUrl (constructor env (Some P)) = VUndefined /\
     validate (constructor env (Some P)) = Throw TypeError /\
     forall endpoint p, FLOWISE_ENDPOINTS !! endpoint = Some (VStr p) ->
       buildUrl (constructor env (Some P)) endpoint VUndefined
       = Normal ("undefined" +:+ p)) /\
  (P !! "apiKey" = Some VUndefined ->
     getApiKey (constructor env (Some P)) = VUndefined /\
     getHeaders (constructor env (Some P)) !! "Authorization" = None /\
     forall r, validate (constructor env (Some P)) = Normal r ->
       In "FLOWISE_API_KEY is required" (errors r)).
Proof.
  split.
  - intros HP.
    assert (Get (config (constructor env (Some P))) "baseUrl" = VUndefined) as Hbase.
    { apply Get_own. rewrite config_constructor. cbn [default from_option id].
      by rewrite HP. }
    split; [exact Hbase|]. split.
    + unfold validate. by rewrite Hbase.
    + intros endpoint p Hp. rewrite buildUrl_no_path, Hbase.
      change (endpoints (constructor env (Some P))) with FLOWISE_ENDPOINTS.
      by rewrite (Get_own _ _ _ Hp).
  - intros HP.
    assert (Get (config (constructor env (Some P))) "apiKey" = VUndefined) as Hkey.
    { apply Get_own. rewrite config_constructor. cbn [default from_option id].
      by rewrite HP. }
    split; [exact Hkey|]. split.
    + unfold getHeaders. rewrite Hkey. cbn [ToBoolean]. by simplify_map_eq.
    + intros r. unfold validate. rewrite Hkey. cbn [ToBoolean negb].
      destruct (startsWith _ "http") as [hasPrefix|e]; [|discriminate].
      cbn [mbind completion_bind mret completion_ret].
      intros [= <-]. cbn [errors].
      destruct (negb (ToBoolean _)), (negb hasPrefix); cbn; auto.
Qed.

End Engine.

(** ** The theorems on the examples of the specification *)

Lemma not_an_endpoint : ~ In "notARealEndpoint" endpoint_names.
Proof. simpl. intros H. repeat (destruct H as [H|H]; [discriminate H|]). exact H. Defined.

Lemma ping_is_an_endpoint : In "ping" endpoint_names.
Proof. simpl. auto 10. Defined.

Lemma prediction_is_an_endpoint : In "prediction" endpoint_names.
Proof. simpl. auto 10. Defined.

(** C1 at [buildUrl("notARealEndpoint")]: no error, and the text
    [undefined] where the path should be. *)
Lemma buildUrl_unknown_endpoint_example :
  ~ In "notARealEndpoint" endpoint_names /\
  forall Number_toString Function_toString,
    buildUrl Number_toString Function_toString public_manager "notARealEndpoint" VUndefined
    = Normal "https://api.flowiseai.comundefined" /\
    buildUrl Number_toString Function_toString public_manager "notARealEndpoint" (VStr "abc123")
    = Normal "https://api.flowiseai.comundefined/abc123".
Proof.
  split; [exact not_an_endpoint|]. intros N F.
  destruct (buildUrl_unknown_endpoint N F public_manager "notARealEndpoint"
              "https://api.flowiseai.com" eq_refl eq_refl not_an_endpoint)
    as [_ Hundef].
  destruct (Hundef eq_refl) as [Hno Hsub].
  split; [exact Hno|].
  apply (Hsub "abc123"). discriminate.
Defined.

(** C1 as the specification states it fails at ["notARealEndpoint"]: the
    call returns a string and throws nothing. *)
Lemma buildUrl_unknown_endpoint_returns :
  ~ In "notARealEndpoint" endpoint_names /\
  forall Number_toString Function_toString,
    buildUrl Number_toString Function_toString public_manager "notARealEndpoint" VUndefined
    = Normal "https://api.flowiseai.comundefined" /\
    ~ exists e,
        buildUrl Number_toString Function_toString public_manager "notARealEndpoint" VUndefined
        = Throw e.
Proof.
  split; [exact not_an_endpoint|]. intros N F. split; [reflexivity|].
  intros [e He]. discriminate He.
Qed.

(** C3 at the two examples: [buildUrl("ping")] on
    [https://api.flowiseai.com], and [buildUrl("prediction", "abc123")]. *)
Lemma buildUrl_known_endpoint_example :
  In "ping" endpoint_names /\ In "prediction" endpoint_names /\
  forall Number_toString Function_toString,
    buildUrl Number_toString Function_toString public_manager "ping" VUndefined
    = Normal "https://api.flowiseai.com/api/v1/ping" /\
    buildUrl Number_toString Function_toString public_manager "prediction" (VStr "abc123")
    = Normal "https://api.flowiseai.com/api/v1/prediction/abc123".
Proof.
  split; [exact ping_is_an_endpoint|]. split; [exact prediction_is_an_endpoint|].
  intros N F. split.
  - destruct (buildUrl_known_endpoint N F public_manager "ping"
                "https://api.flowiseai.com" eq_refl eq_refl ping_is_an_endpoint)
      as [p [Hp [Hno _]]].
    injection Hp as <-. exact Hno.
  - destruct (buildUrl_known_endpoint N F public_manager "prediction"
                "https://api.flowiseai.com" eq_refl eq_refl prediction_is_an_endpoint)
      as [p [Hp [_ Hsub]]].
    injection Hp as <-. apply (Hsub "abc123"). discriminate.
Defined.

(** C3 as the specification states it fails when the sub-path supplied is
    the empty string: no ["/"] is appended. *)
Lemma buildUrl_empty_sub_path_no_slash :
  In "ping" endpoint_names /\
  forall Number_toString Function_toString,
    buildUrl Number_toString Function_toString public_manager "ping" (VStr "")
    = Normal "https://api.flowiseai.com/api/v1/ping" /\
    buildUrl Number_toString Function_toString public_manager "ping" (VStr "")
    <> Normal ((("https://api.flowiseai.com" +:+ "/api/v1/ping") +:+ "/") +:+ "").
Proof.
  split; [exact ping_is_an_endpoint|]. intros N F. split; [reflexivity|].
  intros H. discriminate H.
Qed.

(** C10 at [buildUrl("ping", "")]. *)
Lemma buildUrl_empty_sub_path_example :
  In "ping" endpoint_names /\
  forall Number_toString Function_toString,
    buildUrl Number_toString Function_toString public_manager "ping" (VStr "")
    = buildUrl Number_toString Function_toString public_manager "ping" VUndefined /\
    buildUrl Number_toString Function_toString public_manager "ping" (VStr "")
    = Normal "https://api.flowiseai.com/api/v1/ping".
Proof.
  split; [exact ping_is_an_endpoint|]. intros N F.
  destruct (buildUrl_empty_sub_path N F public_manager "ping"
              "https://api.flowiseai.com" eq_refl eq_refl ping_is_an_endpoint)
    as [Hsame [p [Hp Hurl]]].
  split; [exact Hsame|].
  injection Hp as <-. exact Hurl.
Defined.

(** C5 at [apiKey] ["secret"] and at [apiKey] [""]. *)
Lemma getHeaders_entries_example :
  Get (config secret_manager) "apiKey" = VStr "secret" /\
  Get (config blank_manager) "apiKey" = VStr "" /\
  forall Number_toString Function_toString,
    getHeaders Number_toString Function_toString secret_manager !! "Authorization"
    = Some "Bearer secret" /\
    getHeaders Number_toString Function_toString blank_manager !! "Authorization" = None.
Proof.
  split; [reflexivity|]. split; [reflexivity|]. intros N F. split.
  - destruct (getHeaders_entries N F secret_manager "secret" eq_refl)
      as [_ [_ [Hsome _]]].
    apply Hsome. discriminate.
  - destruct (getHeaders_entries N F blank_manager "" eq_refl)
      as [_ [_ [_ [Hnone _]]]].
    apply Hnone. reflexivity.
Defined.

(** C2 at [{ apiKey: "", baseUrl: "" }]. *)
Lemma validate_blank_example :
  Get (config blank_manager) "apiKey" = VStr "" /\
  Get (config blank_manager) "baseUrl" = VStr "" /\
  validate blank_manager =
  Normal {| valid := false;
            errors := [ "FLOWISE_API_KEY is required";
                        "FLOWISE_BASE_URL is required";
                        "FLOWISE_BASE_URL must start with http:// or https://" ] |}.
Proof.
  split; [reflexivity|]. split; [reflexivity|].
  exact (validate_blank blank_manager eq_refl eq_refl).
Defined.

(** C2 as the specification states it fails at [{ apiKey: "", baseUrl: "" }]:
    the messages are three, not two. *)
Lemma validate_blank_three_messages :
  Get (config blank_manager) "apiKey" = VStr "" /\
  Get (config blank_manager) "baseUrl" = VStr "" /\
  (exists r, validate blank_manager = Normal r /\ length (errors r) = 3) /\
  ~ exists r, validate blank_manager = Normal r /\
              errors r = ["FLOWISE_API_KEY is required"; "FLOWISE_BASE_URL is required"].
Proof.
  split; [reflexivity|]. split; [reflexivity|]. split.
  - eexists. split; reflexivity.
  - intros [r [Hr He]]. vm_compute in Hr. injection Hr as <-. discriminate He.
Qed.

(** C7 at [{ apiKey: "k", baseUrl: "ftp://x" }]. *)
Lemma validate_valid_iff_no_errors_example :
  Get (config ftp_manager) "apiKey" = VStr "k" /\
  Get (config ftp_manager) "baseUrl" = VStr "ftp://x" /\
  validate ftp_manager =
  Normal {| valid := false;
            errors := ["FLOWISE_BASE_URL must start with http:// or https://"] |}.
Proof.
  split; [reflexivity|]. split; [reflexivity|].
  destruct (validate_valid_iff_no_errors ftp_manager "ftp://x" eq_refl)
    as [r [Hr [_ Hftp]]].
  rewrite Hr. f_equal. exact (Hftp eq_refl eq_refl).
Defined.

(** C4 at [new FlowiseConfigManager({ timeout: 5000 })] with no environment
    variable set: the timeout is the caller's, the rest is the default. *)
Lemma constructor_overlay_example :
  timeout_5000 !! "timeout" = Some (VNum (number_of_Z 5000)) /\
  timeout_5000 !! "retries" = None /\
  timeout_5000 !! "baseUrl" = None /\
  getConfig (constructor no_env (Some timeout_5000)) !! "timeout"
    = Some (VNum (number_of_Z 5000)) /\
  getConfig (constructor no_env (Some timeout_5000)) !! "retries"
    = Some (VNum (number_of_Z 3)) /\
  getConfig (constructor no_env (Some timeout_5000)) !! "baseUrl"
    = Some (VStr "https://api.flowiseai.com").
Proof.
  split; [reflexivity|]. split; [reflexivity|]. split; [reflexivity|].
  destruct (constructor_overlay no_env timeout_5000)
    as [Hset [Hkeep [_ [_ [Hbase [_ [Hretries _]]]]]]].
  split; [exact (Hset "timeout" _ eq_refl)|]. split.
  - rewrite (Hkeep "retries" eq_refl). exact Hretries.
  - rewrite (Hkeep "baseUrl" eq_refl). exact Hbase.
Defined.

(** C6 at [updateConfig({ timeout: 5000 })]: the timeout changes, no other
    property does; and at [updateConfig({ baseUrl: '' })]: the empty base
    URL is stored although [validate] rejects it. *)
Lemma updateConfig_frame_example :
  getTimeout (updateConfig public_manager timeout_5000) = VNum (number_of_Z 5000) /\
  (forall k, k <> "timeout" ->
     config (updateConfig public_manager timeout_5000) !! k = config public_manager !! k) /\
  Get (config (updateConfig public_manager blank_baseUrl)) "baseUrl" = VStr "" /\
  exists r, validate (updateConfig public_manager blank_baseUrl) = Normal r /\ valid r = false.
Proof.
  destruct (updateConfig_frame public_manager timeout_5000) as [_ [Hkeep _]].
  destruct (updateConfig_frame public_manager blank_baseUrl) as [_ [_ [_ [_ Hblank]]]].
  split; [reflexivity|]. split.
  - intros k Hk. apply Hkeep. unfold timeout_5000. by apply lookup_singleton_ne.
  - exact (Hblank "" eq_refl eq_refl).
Defined.

(** C8 at a stored timeout of [0] and of [5000]. *)
Lemma getTimeout_falsy_default_example :
  Get (config zero_timeout_manager) "timeout" = VNum (S754_zero false) /\
  getTimeout zero_timeout_manager = VNum (number_of_Z 30000) /\
  Get (config (updateConfig public_manager timeout_5000)) "timeout"
    = VNum (number_of_Z 5000) /\
  getTimeout (updateConfig public_manager timeout_5000) = VNum (number_of_Z 5000).
Proof.
  split; [reflexivity|]. split; [|split; [reflexivity|]].
  - apply (proj1 (getTimeout_falsy_default zero_timeout_manager)).
    right. right. left. exists false. reflexivity.
  - apply (proj2 (getTimeout_falsy_default (updateConfig public_manager timeout_5000))).
    + reflexivity.
    + intros sign H. vm_compute in H. discriminate H.
    + intros H. vm_compute in H. discriminate H.
Defined.

(** C8 as the specification states it fails at a stored timeout of [NaN]:
    the timeout is set and is not 0, and [getTimeout()] is 30000, not the
    stored value. *)
Lemma getTimeout_nan :
  Get (config nan_timeout_manager) "timeout" = VNum S754_nan /\
  (forall sign, S754_nan <> S754_zero sign) /\
  getTimeout nan_timeout_manager = VNum (number_of_Z 30000) /\
  getTimeout nan_timeout_manager <> Get (config nan_timeout_manager) "timeout".
Proof.
  split; [reflexivity|]. split; [discriminate|]. split; [reflexivity|].
  intros H. vm_compute in H. discriminate H.
Qed.

(** C9 at flags explicitly [false], and at flags left to the default or
    overwritten with [undefined]. *)
Lemma flags_nullish_default_example :
  Get (config quiet_manager) "enableLogging" = VBool false /\
  Get (config quiet_manager) "enableCaching" = VBool false /\
  isLoggingEnabled quiet_manager = VBool false /\
  isCachingEnabled quiet_manager = VBool false /\
  Get (config unset_flags_manager) "enableLogging" = VUndefined /\
  isLoggingEnabled unset_flags_manager = VBool true /\
  isCachingEnabled public_manager = VBool true.
Proof.
  destruct (flags_nullish_default quiet_manager) as [Hlog [_ [_ [_ [Hcache _]]]]].
  destruct (flags_nullish_default unset_flags_manager) as [_ [Hunset _]].
  destruct (flags_nullish_default public_manager) as [_ [_ [_ [_ [_ [_ [Hstored _]]]]]]].
  split; [reflexivity|]. split; [reflexivity|].
  split; [exact (Hlog eq_refl)|]. split; [exact (Hcache eq_refl)|].
  split; [reflexivity|]. split; [exact (Hunset (or_introl eq_refl))|].
  exact (Hstored true eq_refl).
Defined.

(** ** The further properties on examples *)

Lemma tools_is_an_endpoint : In "tools" endpoint_names.
Proof. simpl. auto 10. Defined.

Lemma leads_is_an_endpoint : In "leads" endpoint_names.
Proof. simpl. auto 10. Defined.

(** A record with one property, of the declared type, is a
    [Partial<FlowiseConfig>]. *)
Lemma singleton_is_Partial (k : string) (T : value -> bool) (v : value) :
  In (k, T) FlowiseConfig_properties -> optional T v = true ->
  (forall T', In (k, T') FlowiseConfig_properties -> T' = T) ->
  is_Partial_FlowiseConfig {[ k := v ]}.
Proof.
  intros Hin Hv Hfun k' T' v' Hin' Hlook.
  apply lookup_singleton_Some in Hlook as [<- <-].
  by rewrite (Hfun T' Hin').
Defined.

Lemma apiKey_secret_is_Partial : is_Partial_FlowiseConfig apiKey_secret.
Proof.
  apply (singleton_is_Partial "apiKey" is_string); [simpl; auto 10|reflexivity|].
  intros T' H. simpl in H. intuition congruence.
Defined.

Lemma retries_0_is_Partial : is_Partial_FlowiseConfig retries_0.
Proof.
  apply (singleton_is_Partial "retries" is_number); [simpl; auto 10|reflexivity|].
  intros T' H. simpl in H. intuition congruence.
Defined.

(** X1 at [updateConfig({ retries: 0 })]. *)
Lemma getRetries_falsy_default_example :
  retries_0 !! "retries" = Some (VNum (number_of_Z 0)) /\
  getRetries (updateConfig public_manager retries_0) = VNum (number_of_Z 3).
Proof.
  split; [reflexivity|].
  exact (proj1 (getRetries_falsy_default public_manager retries_0 (S754_zero false) eq_refl)).
Defined.

(** X2 at a manager built from the environment and an API key, then
    updated with [{ retries: 0 }]. *)
Lemma typed_reachable_accessors_example :
  typed_reachable full_env
    (updateConfig (constructor full_env (Some apiKey_secret)) retries_0) /\
  truthy_number
    (getRetries (updateConfig (constructor full_env (Some apiKey_secret)) retries_0)) /\
  getEndpoints (updateConfig (constructor full_env (Some apiKey_secret)) retries_0)
  = FLOWISE_ENDPOINTS.
Proof.
  assert (typed_reachable full_env
            (updateConfig (constructor full_env (Some apiKey_secret)) retries_0)) as Hreach.
  { apply typed_update; [apply typed_new; exact apiKey_secret_is_Partial|].
    exact retries_0_is_Partial. }
  split; [exact Hreach|].
  destruct (typed_reachable_accessors full_env _ Hreach) as [Hep [_ [_ [Hretries _]]]].
  split; [exact Hretries|exact Hep].
Defined.

(** X5 at the singleton in an environment that sets both variables. *)
Lemma validate_accepts_example :
  Get (config (flowiseConfig full_env)) "apiKey" = VStr "secret" /\
  Get (config (flowiseConfig full_env)) "baseUrl" = VStr "http://localhost:3000" /\
  exists r, validate (flowiseConfig full_env) = Normal r /\ valid r = true.
Proof.
  split; [reflexivity|]. split; [reflexivity|].
  destruct (validate_accepts (flowiseConfig full_env) "secret" "http://localhost:3000"
              eq_refl eq_refl) as [r [Hr Hvalid]].
  exists r. split; [exact Hr|].
  apply Hvalid. split; [discriminate|reflexivity].
Defined.

(** X6 at [{ apiKey: "", baseUrl: "" }]. *)
Lemma validate_messages_example :
  Get (config blank_manager) "apiKey" = VStr "" /\
  Get (config blank_manager) "baseUrl" = VStr "" /\
  exists r,
    validate blank_manager = Normal r /\
    In "FLOWISE_BASE_URL is required" (errors r) /\
    In "FLOWISE_BASE_URL must start with http:// or https://" (errors r).
Proof.
  split; [reflexivity|]. split; [reflexivity|].
  destruct (validate_messages blank_manager "" "" eq_refl eq_refl)
    as [r [Hr [_ [Hreq [_ Himp]]]]].
  exists r. split; [exact Hr|].
  pose proof (proj2 Hreq eq_refl) as Hin.
  split; [exact Hin|exact (Himp Hin)].
Defined.

(** X9 at [ping] and [tools]. *)
Lemma buildUrl_distinct_endpoints_example :
  In "ping" endpoint_names /\ In "tools" endpoint_names /\
  forall Number_toString Function_toString,
    buildUrl Number_toString Function_toString public_manager "ping" (VStr "42")
    <> buildUrl Number_toString Function_toString public_manager "tools" (VStr "42").
Proof.
  split; [exact ping_is_an_endpoint|]. split; [exact tools_is_an_endpoint|].
  intros N F Heq.
  pose proof (buildUrl_distinct_endpoints N F public_manager
                "https://api.flowiseai.com" "ping" "tools" (VStr "42")
                eq_refl eq_refl ping_is_an_endpoint tools_is_an_endpoint
                (or_intror (ex_intro _ "42" eq_refl)) Heq) as H.
  discriminate H.
Defined.

(** X10 at [buildUrl("leads", "42")]. *)
Lemma buildUrl_api_v1_example :
  In "leads" endpoint_names /\
  forall Number_toString Function_toString,
    exists url,
      buildUrl Number_toString Function_toString public_manager "leads" (VStr "42")
      = Normal url /\
      String.prefix "https://api.flowiseai.com/api/v1/" url = true.
Proof.
  split; [exact leads_is_an_endpoint|]. intros N F.
  exact (buildUrl_api_v1 N F public_manager "https://api.flowiseai.com" "leads" (VStr "42")
           eq_refl eq_refl leads_is_an_endpoint).
Defined.

(** X11 at [updateConfig({ timeout: 5000 })], which names neither [baseUrl]
    nor [apiKey]. *)
Lemma updateConfig_unrelated_example :
  timeout_5000 !! "baseUrl" = None /\ timeout_5000 !! "apiKey" = None /\
  validate (updateConfig secret_manager timeout_5000) = validate secret_manager /\
  forall Number_toString Function_toString,
    buildUrl Number_toString Function_toString (updateConfig secret_manager timeout_5000)
      "ping" VUndefined
    = buildUrl Number_toString Function_toString secret_manager "ping" VUndefined /\
    getHeaders Number_toString Function_toString (updateConfig secret_manager timeout_5000)
    = getHeaders Number_toString Function_toString secret_manager.
Proof.
  split; [reflexivity|]. split; [reflexivity|]. split.
  - destruct (updateConfig_unrelated (fun _ => "") (fun _ => "") secret_manager timeout_5000)
      as [_ [_ [Hvalidate _]]].
    exact (Hvalidate eq_refl eq_refl).
  - intros N F.
    destruct (updateConfig_unrelated N F secret_manager timeout_5000)
      as [Hurl [Hheaders _]].
    split; [exact (Hurl eq_refl "ping" VUndefined)|exact (Hheaders eq_refl)].
Defined.

(** X12 at [new FlowiseConfigManager({ baseUrl: undefined })] in an
    environment that sets [FLOWISE_BASE_URL]. *)
Lemma undefined_overrides_default_example :
  full_env !! "FLOWISE_BASE_URL" = Some "http://localhost:3000" /\
  undefined_baseUrl !! "baseUrl" = Some VUndefined /\
  getBaseUrl (constructor full_env (Some undefined_baseUrl)) = VUndefined /\
  validate (constructor full_env (Some undefined_baseUrl)) = Throw TypeError.
Proof.
  split; [reflexivity|]. split; [reflexivity|].
  destruct (undefined_overrides_default (fun _ => "") (fun _ => "") full_env undefined_baseUrl)
    as [Hbase _].
  destruct (Hbase eq_refl) as [Hget [Hthrow _]].
  split; [exact Hget|exact Hthrow].
Defined.
